(** * runtime/errors.go: translating gRPC errors into HTTP responses

    A shallow embedding of [src/runtime/errors.go] of the gateway's
    [runtime] package, and the properties of its status translator
    ([HTTPStatusStringFromCode], [HTTPStatusFromCode]) and of its two error
    renderers ([DefaultHTTPError], [DefaultOtherErrorHandler]).

    Conventions of the embedding:
    - [codes.Code] is Go's [uint32] and [int], [int32] are machine integers:
      all are [Z], with the wrap-around of a conversion written out;
    - [string] and [[]byte] are Rocq strings;
    - [http.Header] is a finite map from header names to lists of values;
    - the [http.ResponseWriter] is passed explicitly and returned updated;
    - [grpclog.Printf] appends to a log, carried by a small writer monad;
    - an [error] is never [nil];
    - what errors.go uses of the rest of package [runtime] (the server
      metadata and the helpers that forward it) is modelled from the
      specification, and says so. *)

From Stdlib Require Import ZArith String List Lia.
From stdpp Require Import base gmap strings.

Local Open Scope string_scope.
Local Open Scope Z_scope.

(** ** Machine integers *)

(** Go's conversion [uint32(x)]: reduction modulo [2^32]. *)
Definition uint32 (x : Z) : Z := x mod 2 ^ 32.

(** Go's conversion [int32(x)]: two's complement wrap-around. *)
Definition int32 (x : Z) : Z := (x + 2 ^ 31) mod 2 ^ 32 - 2 ^ 31.

(** ** Package [google.golang.org/grpc/codes] *)

Module codes.
(** [type Code uint32] *)
Definition Code : Type := Z.

Definition OK : Code := 0.
Definition Canceled : Code := 1.
Definition Unknown : Code := 2.
Definition InvalidArgument : Code := 3.
Definition DeadlineExceeded : Code := 4.
Definition NotFound : Code := 5.
Definition AlreadyExists : Code := 6.
Definition PermissionDenied : Code := 7.
Definition ResourceExhausted : Code := 8.
Definition FailedPrecondition : Code := 9.
Definition Aborted : Code := 10.
Definition OutOfRange : Code := 11.
Definition Unimplemented : Code := 12.
Definition Internal : Code := 13.
Definition Unavailable : Code := 14.
Definition DataLoss : Code := 15.
Definition Unauthenticated : Code := 16.
End codes.

(** ** Package [net/http] *)

(** The line feed that [fmt.Fprintln] appends, and the double quote. *)
Definition LF : string := String (Ascii.ascii_of_nat 10) EmptyString.
Definition DQ : string := String (Ascii.ascii_of_nat 34) EmptyString.

Module http.
Definition StatusOK : Z := 200.
Definition StatusBadRequest : Z := 400.
Definition StatusUnauthorized : Z := 401.
Definition StatusForbidden : Z := 403.
Definition StatusNotFound : Z := 404.
Definition StatusRequestTimeout : Z := 408.
Definition StatusConflict : Z := 409.
Definition StatusPreconditionFailed : Z := 412.
Definition StatusInternalServerError : Z := 500.
Definition StatusNotImplemented : Z := 501.
Definition StatusServiceUnavailable : Z := 503.

(** [type Header map[string][]string].  Keys are kept as they are given:
    the two literal keys of errors.go, [Trailer] and [Content-Type], are
    already in canonical MIME form. *)
Definition Header : Type := gmap string (list string).

(** [func (h Header) Del(key string)] *)
Definition Del (key : string) (h : gmap string (list string))
  : gmap string (list string) := delete key h.

(** [func (h Header) Set(key, value string)] *)
Definition Set_ (key value : string) (h : gmap string (list string))
  : gmap string (list string) := <[key := [value]]> h.

(** [func (h Header) Add(key, value string)] *)
Definition Add (key value : string) (h : gmap string (list string))
  : gmap string (list string) :=
  <[key := (default [] (h !! key) ++ [value])%list]> h.

(** What was done to a response writer, in order. *)
Inductive Call : Type :=
  | CDel (key : string)
  | CSet (key value : string)
  | CAdd (key value : string)
  | CWriteHeader (statusCode : Z)
  | CWrite (data : string).

(** [type ResponseWriter interface], as a recording writer: the header
    map that [Header()] returns, the status line and the headers fixed by
    the first [WriteHeader], the body written so far, the error that the
    connection answers to a [Write] (if it is broken), and the history of
    calls. *)
Record ResponseWriter : Type := mkResponseWriter {
  HeaderMap : gmap string (list string);
  Code : option Z;
  snapHeader : gmap string (list string);
  Body : string;
  writeErr : option string;
  calls : list Call
}.

(** A writer on which nothing has been done yet. *)
Definition NewRecorder : ResponseWriter :=
  mkResponseWriter ∅ None ∅ EmptyString None [].

(** [w.Header().Del(key)] *)
Definition Header_Del (key : string) (w : ResponseWriter) : ResponseWriter :=
  mkResponseWriter (Del key (HeaderMap w)) (Code w) (snapHeader w) (Body w)
    (writeErr w) (calls w ++ [CDel key])%list.

(** [w.Header().Set(key, value)] *)
Definition Header_Set (key value : string) (w : ResponseWriter)
  : ResponseWriter :=
  mkResponseWriter (Set_ key value (HeaderMap w)) (Code w) (snapHeader w)
    (Body w) (writeErr w) (calls w ++ [CSet key value])%list.

(** [w.Header().Add(key, value)] *)
Definition Header_Add (key value : string) (w : ResponseWriter)
  : ResponseWriter :=
  mkResponseWriter (Add key value (HeaderMap w)) (Code w) (snapHeader w)
    (Body w) (writeErr w) (calls w ++ [CAdd key value])%list.

(** The status line is fixed once: by the first [WriteHeader], which also
    fixes the headers that are sent. *)
Definition commit (statusCode : Z) (w : ResponseWriter) : ResponseWriter :=
  match Code w with
  | Some _ => w
  | None =>
      mkResponseWriter (HeaderMap w) (Some statusCode) (HeaderMap w)
        (Body w) (writeErr w) (calls w)
  end.

(** [func checkWriteHeaderCode(code int)], which [WriteHeader] calls first:
    it panics for a code outside [100..999]; [false] stands for the panic. *)
Definition checkWriteHeaderCode (code : Z) : bool :=
  negb ((code <? 100) || (code >? 999)).

(** How a call on a writer ends: it returns, or it panics and leaves the
    writer as it was then. *)
Inductive Outcome : Type :=
  | Returned (w : ResponseWriter)
  | Panicked (w : ResponseWriter).

(** [w.WriteHeader(statusCode)] for a status code that
    [checkWriteHeaderCode] accepts, as are the two constants that
    [DefaultHTTPError] passes, 200 and 500. *)
Definition WriteHeader (statusCode : Z) (w : ResponseWriter)
  : ResponseWriter :=
  let w := commit statusCode w in
  mkResponseWriter (HeaderMap w) (Code w) (snapHeader w) (Body w)
    (writeErr w) (calls w ++ [CWriteHeader statusCode])%list.

(** [w.Write(data)]: a first write without [WriteHeader] sends [200]; the
    result is the write error, if any. *)
Definition Write (data : string) (w : ResponseWriter)
  : ResponseWriter * option string :=
  let w := commit StatusOK w in
  match writeErr w with
  | Some e =>
      (mkResponseWriter (HeaderMap w) (Code w) (snapHeader w) (Body w)
         (writeErr w) (calls w ++ [CWrite data])%list, Some e)
  | None =>
      (mkResponseWriter (HeaderMap w) (Code w) (snapHeader w)
         (Body w ++ data) (writeErr w) (calls w ++ [CWrite data])%list, None)
  end.

(** [type Request struct]: the parts of a request a handler can look at. *)
Record Request : Type := mkRequest {
  Method : string;
  RequestURI : string;
  Header_ : gmap string (list string);
  RequestBody : string
}.

(** [w.WriteHeader(statusCode)] for any status code: the check, and the
    panic when it fails. *)
Definition WriteHeaderChecked (statusCode : Z) (w : ResponseWriter)
  : Outcome :=
  if checkWriteHeaderCode statusCode then Returned (WriteHeader statusCode w)
  else Panicked w.

(** [func Error(w ResponseWriter, error string, code int)]: it removes
    [Content-Length], sets the two headers, writes the status, which
    panics for a code outside [100..999], and prints the message and a line
    feed, whose write error it drops. *)
Definition Error (w : ResponseWriter) (error : string) (code : Z)
  : Outcome :=
  let w := Header_Del "Content-Length" w in
  let w := Header_Set "Content-Type" "text/plain; charset=utf-8" w in
  let w := Header_Set "X-Content-Type-Options" "nosniff" w in
  match WriteHeaderChecked code w with
  | Returned w => Returned (fst (Write (error ++ LF) w))
  | Panicked w => Panicked w
  end.
End http.

(** ** The status tokens (the [const] block of errors.go) *)

Definition OK : string := "OK".
Definition InvalidArgument : string := "INVALID_ARGUMENT".
Definition FailedPrecondition : string := "FAILED_PRECONDITION".
Definition OutOfRange : string := "OUT_OF_RANGE".
Definition Unauthenticated : string := "UNAUTHENTICATED".
Definition PermissionDenied : string := "PERMISSION_DENIED".
Definition NotFound : string := "NOT_FOUND".
Definition Aborted : string := "ABORTED".
Definition AlreadyExists : string := "ALREADY_EXISTS".
Definition ResourceExhausted : string := "RESOURCE_EXHAUSTED".
Definition Canceled : string := "CANCELLED".
Definition DataLoss : string := "DATA_LOSS".
Definition Unknown : string := "UNKNOWN".
Definition Internal : string := "INTERNAL".
Definition NotImplemented : string := "NOT_IMPLEMENTED".
Definition Unavailable : string := "UNAVAILABLE".
Definition DeadlineExceeded : string := "DEADLINE_EXCEEDED".

(** ** The error envelope *)

(** [google_protobuf.Any]: an opaque, self-describing detail record. *)
Record Any : Type := mkAny {
  TypeUrl : string;
  Value : string
}.

(** [type errorInfo struct] *)
Record errorInfo : Type := mkErrorInfo {
  Code : Z;            (* int32 *)
  Message : string;
  Status : string;
  Details : list Any
}.

(** [type errorBody struct]; the [Error] field is never nil in this file. *)
Record errorBody : Type := mkErrorBody {
  Error : errorInfo
}.

(** ** Logging: [grpclog.Printf] *)

(** The values the file hands to [grpclog.Printf]. *)
Inductive LogArg : Type :=
  | ArgCode (code : codes.Code)
  | ArgBody (body : errorBody)
  | ArgError (err : string).

(** One call of [grpclog.Printf]: the format string and its arguments. *)
Record LogEntry : Type := Printf {
  format : string;
  args : list LogArg
}.

(** A computation that returns an [A] and appends entries to the log. *)
Definition Logged (A : Type) : Type := A * list LogEntry.

Definition ret {A : Type} (a : A) : Logged A := (a, []).

Definition bind {A B : Type} (m : Logged A) (f : A -> Logged B) : Logged B :=
  let '(a, l1) := m in
  let '(b, l2) := f a in
  (b, (l1 ++ l2)%list).

Notation "'do' x <- m ; k" := (bind m (fun x => k))
  (at level 10, x name, m at level 100, k at level 200).

Definition grpclog_Printf (fmt : string) (a : list LogArg) : Logged unit :=
  (tt, [Printf fmt a]).

(** The value and the log of a computation. *)
Definition value {A : Type} (m : Logged A) : A := fst m.
Definition logged {A : Type} (m : Logged A) : list LogEntry := snd m.

(** ** The status translator *)

(** [func HTTPStatusStringFromCode(code codes.Code) string] *)
Definition HTTPStatusStringFromCode (code : codes.Code) : Logged string :=
  if code =? codes.OK then ret OK
  else if code =? codes.Canceled then ret Canceled
  else if code =? codes.Unknown then ret Unknown
  else if code =? codes.InvalidArgument then ret InvalidArgument
  else if code =? codes.DeadlineExceeded then ret DeadlineExceeded
  else if code =? codes.NotFound then ret NotFound
  else if code =? codes.AlreadyExists then ret AlreadyExists
  else if code =? codes.PermissionDenied then ret PermissionDenied
  else if code =? codes.Unauthenticated then ret Unauthenticated
  else if code =? codes.ResourceExhausted then ret ResourceExhausted
  else if code =? codes.FailedPrecondition then ret FailedPrecondition
  else if code =? codes.Aborted then ret Aborted
  else if code =? codes.OutOfRange then ret OutOfRange
  else if code =? codes.Unimplemented then ret NotImplemented
  else if code =? codes.Internal then ret Internal
  else if code =? codes.Unavailable then ret Unavailable
  else if code =? codes.DataLoss then ret DataLoss
  else
    do _ <- grpclog_Printf "Unknown gRPC error code: %v" [ArgCode code];
    ret Internal.

(** [func HTTPStatusFromCode(code codes.Code) int] *)
Definition HTTPStatusFromCode (code : codes.Code) : Logged Z :=
  if code =? codes.OK then ret http.StatusOK
  else if code =? codes.Canceled then ret http.StatusRequestTimeout
  else if code =? codes.Unknown then ret http.StatusInternalServerError
  else if code =? codes.InvalidArgument then ret http.StatusBadRequest
  else if code =? codes.DeadlineExceeded then ret http.StatusRequestTimeout
  else if code =? codes.NotFound then ret http.StatusNotFound
  else if code =? codes.AlreadyExists then ret http.StatusConflict
  else if code =? codes.PermissionDenied then ret http.StatusForbidden
  else if code =? codes.Unauthenticated then ret http.StatusUnauthorized
  else if code =? codes.ResourceExhausted then ret http.StatusForbidden
  else if code =? codes.FailedPrecondition then ret http.StatusPreconditionFailed
  else if code =? codes.Aborted then ret http.StatusConflict
  else if code =? codes.OutOfRange then ret http.StatusBadRequest
  else if code =? codes.Unimplemented then ret http.StatusNotImplemented
  else if code =? codes.Internal then ret http.StatusInternalServerError
  else if code =? codes.Unavailable then ret http.StatusServiceUnavailable
  else if code =? codes.DataLoss then ret http.StatusInternalServerError
  else
    do _ <- grpclog_Printf "Unknown gRPC error code: %v" [ArgCode code];
    ret http.StatusInternalServerError.

(** ** Errors and the packages [status] and [spb] *)

(** [google.golang.org/genproto/googleapis/rpc/status.Status] *)
Module spb.
Record Status : Type := mkStatus {
  Code : Z;            (* int32 *)
  Message : string;
  Details : list Any
}.
End spb.

(** Go's [error]: the text that [Error()] returns and, for an error made by
    the gRPC system, the status it carries. *)
Record error : Type := mkError {
  err_Error : string;
  err_status : option spb.Status
}.

Module status.
(** [type Status struct { s *spb.Status }] *)
Definition Status : Type := spb.Status.

(** [func New(c codes.Code, msg string) *Status] *)
Definition New (c : codes.Code) (msg : string) : Status :=
  spb.mkStatus (int32 c) msg [].

(** [func FromError(err error) (s *Status, ok bool)]: [None] stands for
    [ok == false]. *)
Definition FromError (err : error) : option Status := err_status err.

(** [func (s *Status) Proto() *spb.Status] *)
Definition Proto (s : Status) : spb.Status := s.

(** [func (s *Status) Code() codes.Code] *)
Definition Code (s : Status) : codes.Code := uint32 (spb.Code s).
End status.

(** ** The marshaler *)

(** [type Marshaler interface]: the two methods errors.go calls.  [Marshal]
    returns the bytes and the error, [None] for [nil]. *)
Record Marshaler : Type := mkMarshaler {
  Marshal : errorBody -> string * option string;
  ContentType : string
}.

(** ** Server metadata and the forwarding helpers *)

(** Modelled from the spec: the type [ServerMetadata] is declared outside
    errors.go.  The spec describes it as a carrier of two ordered sets of
    key/value pairs, one to surface as response headers and one as
    trailers. *)
Record ServerMetadata : Type := mkServerMetadata {
  HeaderMD : list (string * string);
  TrailerMD : list (string * string)
}.

(** Modelled from the spec: the request context, of which errors.go reads
    only the server metadata, which may be absent. *)
Record Context : Type := mkContext {
  serverMetadata : option ServerMetadata
}.

(** Modelled from the spec: [ServerMetadataFromContext] is defined outside
    errors.go.  The lookup is keyed by the request's context and absence is
    legal: the result is then the empty metadata and [false]. *)
Definition ServerMetadataFromContext (ctx : Context) : ServerMetadata * bool :=
  match serverMetadata ctx with
  | Some md => (md, true)
  | None => (mkServerMetadata [] [], false)
  end.

(** Adding a sequence of key/value pairs to the header map of a writer. *)
Definition addEntries (kvs : list (string * string)) (w : http.ResponseWriter)
  : http.ResponseWriter :=
  fold_left (fun w kv => http.Header_Add (fst kv) (snd kv) w) kvs w.

(** The [Trailer] declarations for a sequence of trailer entries. *)
Definition trailerNames (kvs : list (string * string))
  : list (string * string) :=
  map (fun kv => ("Trailer", fst kv)) kvs.

Section Renderer.

(** The type [ServeMux] is declared outside errors.go, which only passes
    the multiplexer on. *)
Context {ServeMux : Type}.

(** Modelled from the spec: [handleForwardResponseServerMetadata] is
    defined outside errors.go.  It copies the pending header entries of
    the metadata onto the response header set. *)
Definition handleForwardResponseServerMetadata (w : http.ResponseWriter)
    (mux : ServeMux) (md : ServerMetadata) : http.ResponseWriter :=
  addEntries (HeaderMD md) w.

(** Modelled from the spec: [handleForwardResponseTrailerHeader] is
    defined outside errors.go.  It declares the trailer names via the
    [Trailer] header. *)
Definition handleForwardResponseTrailerHeader (w : http.ResponseWriter)
    (md : ServerMetadata) : http.ResponseWriter :=
  addEntries (trailerNames (TrailerMD md)) w.

(** Modelled from the spec: [handleForwardResponseTrailer] is defined
    outside errors.go.  It copies the pending trailer entries onto the
    response trailer set, which a Go response writer keeps in its header
    map. *)
Definition handleForwardResponseTrailer (w : http.ResponseWriter)
    (md : ServerMetadata) : http.ResponseWriter :=
  addEntries (TrailerMD md) w.

(** ** The renderers *)

(** [const fallback] of [DefaultHTTPError]. *)
Definition fallback : string :=
  "{" ++ DQ ++ "error" ++ DQ ++ ": " ++ DQ
      ++ "failed to marshal error message" ++ DQ ++ "}".

(** The envelope that [DefaultHTTPError] builds from the error: lines
    198 to 210 of errors.go. *)
Definition buildErrorBody (err : error) : Logged errorBody :=
  let s :=
    match status.FromError err with
    | Some s => s
    | None => status.New codes.Unknown (err_Error err)
    end in
  let sp := status.Proto s in
  do tok <- HTTPStatusStringFromCode (status.Code s);
  ret {| Error := {| Code := int32 (spb.Code sp);
                     Message := spb.Message sp;
                     Details := spb.Details sp;
                     Status := tok |} |}.

(** The logging of a failed write: [if err != nil { grpclog.Printf(...) }]. *)
Definition logWriteError (werr : option string) : Logged unit :=
  match werr with
  | Some e => grpclog_Printf "Failed to write response: %v" [ArgError e]
  | None => ret tt
  end.

(** [func DefaultHTTPError(ctx context.Context, mux *ServeMux,
      marshaler Marshaler, w http.ResponseWriter, _ *http.Request,
      err error)] *)
Definition DefaultHTTPError (ctx : Context) (mux : ServeMux)
    (marshaler : Marshaler) (w : http.ResponseWriter) (_ : http.Request)
    (err : error) : Logged http.ResponseWriter :=
  let w := http.Header_Del "Trailer" w in
  let w := http.Header_Set "Content-Type" (ContentType marshaler) w in
  do body <- buildErrorBody err;
  let '(buf, merr) := Marshal marshaler body in
  match merr with
  | Some merr =>
      do _ <- grpclog_Printf "Failed to marshal error message %q: %v"
                [ArgBody body; ArgError merr];
      let w := http.WriteHeader http.StatusInternalServerError w in
      let '(w, werr) := http.Write fallback w in
      do _ <- logWriteError werr;
      ret w
  | None =>
      let '(md, ok) := ServerMetadataFromContext ctx in
      do _ <- (if negb ok
               then grpclog_Printf
                      "Failed to extract ServerMetadata from context" []
               else ret tt);
      let w := handleForwardResponseServerMetadata w mux md in
      let w := handleForwardResponseTrailerHeader w md in
      let w := http.WriteHeader http.StatusOK w in
      let '(w, werr) := http.Write buf w in
      do _ <- logWriteError werr;
      let w := handleForwardResponseTrailer w md in
      ret w
  end.

(** [func DefaultOtherErrorHandler(w http.ResponseWriter, _ *http.Request,
      msg string, code int)] *)
Definition DefaultOtherErrorHandler (w : http.ResponseWriter)
    (_ : http.Request) (msg : string) (code : Z) : http.Outcome :=
  http.Error w msg code.

(** [var HTTPError = DefaultHTTPError] and
    [var OtherErrorHandler = DefaultOtherErrorHandler]: the initial values of
    the two replaceable entry points. *)
Definition HTTPError := DefaultHTTPError.
Definition OtherErrorHandler := DefaultOtherErrorHandler.

End Renderer.

(** ** The enumeration and the tables of the specification *)

Module Spec.
(** The closed enumeration of 17 status codes. *)
Inductive StatusCode : Type :=
  | OK | CANCELLED | UNKNOWN | INVALID_ARGUMENT | DEADLINE_EXCEEDED
  | NOT_FOUND | ALREADY_EXISTS | PERMISSION_DENIED | RESOURCE_EXHAUSTED
  | FAILED_PRECONDITION | ABORTED | OUT_OF_RANGE | UNIMPLEMENTED
  | INTERNAL | UNAVAILABLE | DATA_LOSS | UNAUTHENTICATED.

Definition all : list StatusCode :=
  [OK; CANCELLED; UNKNOWN; INVALID_ARGUMENT; DEADLINE_EXCEEDED; NOT_FOUND;
   ALREADY_EXISTS; PERMISSION_DENIED; RESOURCE_EXHAUSTED;
   FAILED_PRECONDITION; ABORTED; OUT_OF_RANGE; UNIMPLEMENTED; INTERNAL;
   UNAVAILABLE; DATA_LOSS; UNAUTHENTICATED].

(** The value of package [codes] that each name stands for. *)
Definition code (sc : StatusCode) : codes.Code :=
  match sc with
  | OK => codes.OK
  | CANCELLED => codes.Canceled
  | UNKNOWN => codes.Unknown
  | INVALID_ARGUMENT => codes.InvalidArgument
  | DEADLINE_EXCEEDED => codes.DeadlineExceeded
  | NOT_FOUND => codes.NotFound
  | ALREADY_EXISTS => codes.AlreadyExists
  | PERMISSION_DENIED => codes.PermissionDenied
  | RESOURCE_EXHAUSTED => codes.ResourceExhausted
  | FAILED_PRECONDITION => codes.FailedPrecondition
  | ABORTED => codes.Aborted
  | OUT_OF_RANGE => codes.OutOfRange
  | UNIMPLEMENTED => codes.Unimplemented
  | INTERNAL => codes.Internal
  | UNAVAILABLE => codes.Unavailable
  | DATA_LOSS => codes.DataLoss
  | UNAUTHENTICATED => codes.Unauthenticated
  end.

(** The name of each value, as the specification spells it. *)
Definition name (sc : StatusCode) : string :=
  match sc with
  | OK => "OK"
  | CANCELLED => "CANCELLED"
  | UNKNOWN => "UNKNOWN"
  | INVALID_ARGUMENT => "INVALID_ARGUMENT"
  | DEADLINE_EXCEEDED => "DEADLINE_EXCEEDED"
  | NOT_FOUND => "NOT_FOUND"
  | ALREADY_EXISTS => "ALREADY_EXISTS"
  | PERMISSION_DENIED => "PERMISSION_DENIED"
  | RESOURCE_EXHAUSTED => "RESOURCE_EXHAUSTED"
  | FAILED_PRECONDITION => "FAILED_PRECONDITION"
  | ABORTED => "ABORTED"
  | OUT_OF_RANGE => "OUT_OF_RANGE"
  | UNIMPLEMENTED => "UNIMPLEMENTED"
  | INTERNAL => "INTERNAL"
  | UNAVAILABLE => "UNAVAILABLE"
  | DATA_LOSS => "DATA_LOSS"
  | UNAUTHENTICATED => "UNAUTHENTICATED"
  end.

(** The mapping table of the specification, code to HTTP status. *)
Definition httpStatus (sc : StatusCode) : Z :=
  match sc with
  | OK => 200
  | CANCELLED => 408
  | UNKNOWN => 500
  | INVALID_ARGUMENT => 400
  | DEADLINE_EXCEEDED => 408
  | NOT_FOUND => 404
  | ALREADY_EXISTS => 409
  | PERMISSION_DENIED => 403
  | UNAUTHENTICATED => 401
  | RESOURCE_EXHAUSTED => 403
  | FAILED_PRECONDITION => 412
  | ABORTED => 409
  | OUT_OF_RANGE => 400
  | UNIMPLEMENTED => 501
  | INTERNAL => 500
  | UNAVAILABLE => 503
  | DATA_LOSS => 500
  end.
End Spec.

(** ** Observations on a response writer and on the renderer *)

(** The calls and the header map that [addEntries] produces. *)
Definition addCalls (kvs : list (string * string)) : list http.Call :=
  map (fun kv => http.CAdd (fst kv) (snd kv)) kvs.

Definition addHeaders (kvs : list (string * string))
    (h : gmap string (list string)) : gmap string (list string) :=
  fold_left (fun h kv => http.Add (fst kv) (snd kv) h) kvs h.

(** The status codes passed to [WriteHeader], in order. *)
Fixpoint statusCalls (cs : list http.Call) : list Z :=
  match cs with
  | [] => []
  | http.CWriteHeader c :: cs => c :: statusCalls cs
  | _ :: cs => statusCalls cs
  end.

(** The data passed to [Write], in order. *)
Fixpoint writeCalls (cs : list http.Call) : list string :=
  match cs with
  | [] => []
  | http.CWrite d :: cs => d :: writeCalls cs
  | _ :: cs => writeCalls cs
  end.

(** The header map after the first two statements of [DefaultHTTPError]. *)
Definition baseHeader (marshaler : Marshaler) (w : http.ResponseWriter)
  : gmap string (list string) :=
  <["Content-Type" := [ContentType marshaler]]>
    (delete "Trailer" (http.HeaderMap w)).

(** The status line once [WriteHeader statusCode] has been called: the one
    written before, if any. *)
Definition statusAfter (statusCode : Z) (w : http.ResponseWriter) : Z :=
  default statusCode (http.Code w).

(** The body once [Write data] has been called. *)
Definition bodyAfter (data : string) (w : http.ResponseWriter) : string :=
  match http.writeErr w with
  | Some _ => http.Body w
  | None => http.Body w ++ data
  end.

(** The log entry of a [Write] on a broken connection. *)
Definition writeErrorLog (w : http.ResponseWriter) : list LogEntry :=
  match http.writeErr w with
  | Some e => [Printf "Failed to write response: %v" [ArgError e]]
  | None => []
  end.

(** The log entry of a context without server metadata. *)
Definition noMetadataLog (ctx : Context) : list LogEntry :=
  if snd (ServerMetadataFromContext ctx) then []
  else [Printf "Failed to extract ServerMetadata from context" []].

(** The metadata that [DefaultHTTPError] forwards. *)
Definition metadataOf (ctx : Context) : ServerMetadata :=
  fst (ServerMetadataFromContext ctx).

(** The envelope of an error that carries no status, as the specification
    describes it. *)
Definition unknownEnvelope (err : error) : errorBody :=
  {| Error := {| Code := 2; Message := err_Error err; Status := "UNKNOWN";
                 Details := [] |} |}.

(** The bytes of the fallback body. *)
Definition bytesOf (s : string) : list nat :=
  map Ascii.nat_of_ascii (list_ascii_of_string s).

(** The entries that [DefaultHTTPError] adds to the header map after its
    first two statements: none when the marshaler fails, otherwise the
    header entries, the trailer declarations and the trailer entries. *)
Definition forwardedEntries (ctx : Context) (marshaler : Marshaler)
    (err : error) : list (string * string) :=
  match snd (Marshal marshaler (value (buildErrorBody err))) with
  | Some _ => []
  | None =>
      let md := metadataOf ctx in
      (HeaderMD md ++ trailerNames (TrailerMD md) ++ TrailerMD md)%list
  end.

(** ** Sample inputs *)

(** A marshaler that writes the token and the message of the envelope. *)
Definition textMarshaler : Marshaler :=
  {| Marshal := fun body =>
       (Status (Error body) ++ ": " ++ Message (Error body), None);
     ContentType := "application/json" |}.

(** A marshaler that always fails. *)
Definition failingMarshaler : Marshaler :=
  {| Marshal := fun _ => (EmptyString, Some "cannot marshal");
     ContentType := "application/json" |}.

(** A marshaler that always fails, with an error that names the message
    of the envelope. *)
Definition echoFailMarshaler : Marshaler :=
  {| Marshal := fun body =>
       (Message (Error body),
        Some ("cannot marshal: " ++ Message (Error body)));
     ContentType := "application/json" |}.

(** An error of the gRPC system: NOT_FOUND with the message [missing]. *)
Definition notFoundError : error :=
  {| err_Error := "rpc error: code = NotFound desc = missing";
     err_status := Some (spb.mkStatus 5 "missing" []) |}.

(** An error that carries no status. *)
Definition boomError : error :=
  {| err_Error := "boom"; err_status := None |}.

Definition getRequest : http.Request :=
  http.mkRequest "GET" "/v1/items/7" ∅ EmptyString.


(** A context without server metadata, and one with a header and a
    trailer entry. *)
Definition noMetadata : Context := mkContext None.

Definition someMetadata : Context :=
  mkContext (Some (mkServerMetadata [("X-Request-Id", "42")]
                                    [("Grpc-Trailer-Cost", "3")])).

(** ** Further observations *)

(** The status that [DefaultHTTPError] renders: the one the error carries,
    or the UNKNOWN status made from its text (lines 198 to 201). *)
Definition statusOfError (err : error) : status.Status :=
  match status.FromError err with
  | Some s => s
  | None => status.New codes.Unknown (err_Error err)
  end.

(** A capital letter or an underscore. *)
Definition isUpperOrUnderscore (c : Ascii.ascii) : bool :=
  let n := Ascii.nat_of_ascii c in
  ((65 <=? n)%nat && (n <=? 90)%nat) || (n =? 95)%nat.

(** The same writer on a connection that answers [e] to a [Write]. *)
Definition withWriteErr (e : option string) (w : http.ResponseWriter)
  : http.ResponseWriter :=
  http.mkResponseWriter (http.HeaderMap w) (http.Code w) (http.snapHeader w)
    (http.Body w) e (http.calls w).

(** ** Tactics *)

Ltac unfold_codes :=
  unfold codes.OK, codes.Canceled, codes.Unknown, codes.InvalidArgument,
    codes.DeadlineExceeded, codes.NotFound, codes.AlreadyExists,
    codes.PermissionDenied, codes.ResourceExhausted,
    codes.FailedPrecondition, codes.Aborted, codes.OutOfRange,
    codes.Unimplemented, codes.Internal, codes.Unavailable, codes.DataLoss,
    codes.Unauthenticated in *.

(** Outside [0..16] no case of the two switches is taken. *)
Ltac skip_cases :=
  repeat match goal with
         | |- context [Z.eqb ?a ?b] =>
             destruct (Z.eqb_spec a b) as [Heq|_];
             [exfalso; revert Heq; unfold_codes; lia|]
         end.

(** * Properties *)

(** ** The status translator *)

Lemma all_complete (sc : Spec.StatusCode) : In sc Spec.all.
Proof. destruct sc; simpl; tauto. Qed.

Lemma all_length : length Spec.all = 17%nat.
Proof. reflexivity. Qed.

Lemma code_injective (a b : Spec.StatusCode) : Spec.code a = Spec.code b -> a = b.
Proof. destruct a, b; intros H; try reflexivity; discriminate H. Qed.

(** A code is outside the enumeration exactly when it is outside [0..16]. *)
Lemma outside_range (code : codes.Code) :
  (forall sc, Spec.code sc <> code) <-> (code < 0 \/ 16 < code).
Proof.
  split.
  - intros H.
    destruct (Z_lt_dec code 0) as [|Hge]; [now left|].
    destruct (Z_lt_dec 16 code) as [|Hle]; [now right|].
    exfalso.
    assert (Hcases : In code (map Spec.code Spec.all))
      by (simpl; unfold_codes; lia).
    apply in_map_iff in Hcases as (sc & Hsc & _).
    exact (H sc Hsc).
  - intros Hout sc. destruct sc; cbv [Spec.code]; unfold_codes; lia.
Qed.

(** C1: for each of the 17 defined status codes, [HTTPStatusFromCode]
    returns the HTTP status of the specification's mapping table (OK 200,
    CANCELLED 408, UNKNOWN 500, INVALID_ARGUMENT 400, DEADLINE_EXCEEDED 408,
    NOT_FOUND 404, ALREADY_EXISTS 409, PERMISSION_DENIED 403,
    UNAUTHENTICATED 401, RESOURCE_EXHAUSTED 403, FAILED_PRECONDITION 412,
    ABORTED 409, OUT_OF_RANGE 400, UNIMPLEMENTED 501, INTERNAL 500,
    UNAVAILABLE 503, DATA_LOSS 500), and logs nothing. *)
Theorem HTTPStatusFromCode_table (sc : Spec.StatusCode) :
  HTTPStatusFromCode (Spec.code sc) = (Spec.httpStatus sc, []).
Proof. destruct sc; reflexivity. Qed.

(** C5: for each of the 17 defined status codes, [HTTPStatusStringFromCode]
    returns the enumeration name itself, except that UNIMPLEMENTED gives
    NOT_IMPLEMENTED; CANCELLED keeps its spelling with two L. *)
Theorem HTTPStatusStringFromCode_names (sc : Spec.StatusCode) :
  value (HTTPStatusStringFromCode (Spec.code sc))
    = match sc with
      | Spec.UNIMPLEMENTED => "NOT_IMPLEMENTED"
      | _ => Spec.name sc
      end
  /\ value (HTTPStatusStringFromCode (Spec.code Spec.CANCELLED)) = "CANCELLED"
  /\ logged (HTTPStatusStringFromCode (Spec.code sc)) = [].
Proof. destruct sc; repeat split. Qed.

(** C6: for a code outside the 17-value enumeration,
    [HTTPStatusStringFromCode] returns the token INTERNAL and
    [HTTPStatusFromCode] returns 500, each after one diagnostic log entry;
    both functions are total. *)
Theorem translator_fallback (code : codes.Code) :
  (forall sc, Spec.code sc <> code) ->
  HTTPStatusStringFromCode code
    = ("INTERNAL", [Printf "Unknown gRPC error code: %v" [ArgCode code]])
  /\ HTTPStatusFromCode code
    = (500, [Printf "Unknown gRPC error code: %v" [ArgCode code]]).
Proof.
  intros Hout. apply outside_range in Hout.
  unfold HTTPStatusStringFromCode, HTTPStatusFromCode.
  split; skip_cases; reflexivity.
Qed.

Lemma translator_fallback_witness :
  HTTPStatusStringFromCode 17
    = ("INTERNAL", [Printf "Unknown gRPC error code: %v" [ArgCode 17]])
  /\ HTTPStatusFromCode 17
    = (500, [Printf "Unknown gRPC error code: %v" [ArgCode 17]]).
Proof.
  apply (translator_fallback 17).
  intros sc; destruct sc; vm_compute; discriminate.
Defined.

(** ** The forwarding helpers touch the header map only *)

Lemma addEntries_spec (kvs : list (string * string)) (w : http.ResponseWriter) :
  addEntries kvs w
  = http.mkResponseWriter (addHeaders kvs (http.HeaderMap w)) (http.Code w)
      (http.snapHeader w) (http.Body w) (http.writeErr w)
      (http.calls w ++ addCalls kvs).
Proof.
  revert w. induction kvs as [|kv kvs IH]; intros w.
  - destruct w; simpl. now rewrite app_nil_r.
  - unfold addEntries in *. simpl. rewrite IH. simpl.
    now rewrite <- app_assoc.
Qed.

Lemma statusCalls_app (l1 l2 : list http.Call) :
  statusCalls (l1 ++ l2) = (statusCalls l1 ++ statusCalls l2)%list.
Proof.
  induction l1 as [|c l1 IH]; [reflexivity|].
  destruct c; simpl; now rewrite IH.
Qed.

Lemma writeCalls_app (l1 l2 : list http.Call) :
  writeCalls (l1 ++ l2) = (writeCalls l1 ++ writeCalls l2)%list.
Proof.
  induction l1 as [|c l1 IH]; [reflexivity|].
  destruct c; simpl; now rewrite IH.
Qed.

Lemma statusCalls_addCalls (kvs : list (string * string)) :
  statusCalls (addCalls kvs) = [].
Proof. induction kvs as [|kv kvs IH]; [reflexivity|exact IH]. Qed.

Lemma writeCalls_addCalls (kvs : list (string * string)) :
  writeCalls (addCalls kvs) = [].
Proof. induction kvs as [|kv kvs IH]; [reflexivity|exact IH]. Qed.

Lemma baseHeader_no_trailer (marshaler : Marshaler) (w : http.ResponseWriter) :
  baseHeader marshaler w !! "Trailer" = None.
Proof.
  unfold baseHeader. rewrite lookup_insert_ne by discriminate.
  apply lookup_delete_eq.
Qed.

Lemma baseHeader_content_type (marshaler : Marshaler) (w : http.ResponseWriter) :
  baseHeader marshaler w !! "Content-Type" = Some [ContentType marshaler].
Proof. unfold baseHeader. apply lookup_insert_eq. Qed.

Lemma baseHeader_other (marshaler : Marshaler) (w : http.ResponseWriter)
    (key : string) :
  key <> "Content-Type" -> key <> "Trailer" ->
  baseHeader marshaler w !! key = http.HeaderMap w !! key.
Proof.
  intros Hct Htr. unfold baseHeader.
  rewrite lookup_insert_ne by congruence.
  now rewrite lookup_delete_ne by congruence.
Qed.

Lemma baseHeader_empty (marshaler : Marshaler) (w : http.ResponseWriter) :
  http.HeaderMap w = ∅ ->
  baseHeader marshaler w = {["Content-Type" := [ContentType marshaler]]}.
Proof. intros H. unfold baseHeader. rewrite H. now rewrite delete_empty. Qed.

(** The fallback body, byte by byte:
    [{"error": "failed to marshal error message"}]. *)
Lemma fallback_bytes :
  bytesOf fallback
  = [123; 34; 101; 114; 114; 111; 114; 34; 58; 32; 34; 102; 97; 105; 108;
     101; 100; 32; 116; 111; 32; 109; 97; 114; 115; 104; 97; 108; 32; 101;
     114; 114; 111; 114; 32; 109; 101; 115; 115; 97; 103; 101; 34;
     125]%nat.
Proof. reflexivity. Qed.

(** ** The envelope *)

Lemma buildErrorBody_value (err : error) :
  value (buildErrorBody err)
  = let s := match status.FromError err with
             | Some s => s
             | None => status.New codes.Unknown (err_Error err)
             end in
    {| Error := {| Code := int32 (spb.Code s);
                   Message := spb.Message s;
                   Details := spb.Details s;
                   Status := value (HTTPStatusStringFromCode (status.Code s)) |} |}.
Proof.
  unfold buildErrorBody, bind, ret, value.
  destruct (HTTPStatusStringFromCode _) as [tok l]. reflexivity.
Qed.

Lemma buildErrorBody_unknown (err : error) :
  status.FromError err = None ->
  buildErrorBody err = (unknownEnvelope err, []).
Proof. unfold buildErrorBody. intros ->. reflexivity. Qed.

(** ** The two paths of [DefaultHTTPError] *)

Section RendererProperties.

Context {ServeMux : Type}.

(** The marshal-failure path, field by field. *)
Lemma DefaultHTTPError_marshal_failure (ctx : Context) (mux : ServeMux)
    (marshaler : Marshaler) (w : http.ResponseWriter) (req : http.Request)
    (err : error) (buf merr : string) :
  Marshal marshaler (value (buildErrorBody err)) = (buf, Some merr) ->
  let w' := value (DefaultHTTPError ctx mux marshaler w req err) in
  http.calls w'
    = (http.calls w
       ++ [http.CDel "Trailer";
           http.CSet "Content-Type" (ContentType marshaler);
           http.CWriteHeader 500; http.CWrite fallback])%list
  /\ http.HeaderMap w' = baseHeader marshaler w
  /\ http.Code w' = Some (statusAfter 500 w)
  /\ (http.Code w = None -> http.snapHeader w' = baseHeader marshaler w)
  /\ http.writeErr w' = http.writeErr w
  /\ http.Body w' = bodyAfter fallback w.
Proof.
  unfold DefaultHTTPError, value, bind.
  destruct (buildErrorBody err) as [body l0]. simpl fst.
  intros ->. unfold statusAfter, bodyAfter, baseHeader.
  destruct w as [h c sh b we cs]; destruct c, we; simpl;
    rewrite <- ?app_assoc; simpl; repeat split; try discriminate.
Qed.

(** The path on which the envelope is serialized, field by field. *)
Lemma DefaultHTTPError_marshal_success (ctx : Context) (mux : ServeMux)
    (marshaler : Marshaler) (w : http.ResponseWriter) (req : http.Request)
    (err : error) (buf : string) :
  Marshal marshaler (value (buildErrorBody err)) = (buf, None) ->
  let w' := value (DefaultHTTPError ctx mux marshaler w req err) in
  let md := metadataOf ctx in
  let sent := addHeaders (trailerNames (TrailerMD md))
                (addHeaders (HeaderMD md) (baseHeader marshaler w)) in
  http.calls w'
    = (http.calls w
       ++ [http.CDel "Trailer";
           http.CSet "Content-Type" (ContentType marshaler)]
       ++ addCalls (HeaderMD md)
       ++ addCalls (trailerNames (TrailerMD md))
       ++ [http.CWriteHeader 200; http.CWrite buf]
       ++ addCalls (TrailerMD md))%list
  /\ http.HeaderMap w' = addHeaders (TrailerMD md) sent
  /\ http.Code w' = Some (statusAfter 200 w)
  /\ (http.Code w = None -> http.snapHeader w' = sent)
  /\ http.writeErr w' = http.writeErr w
  /\ http.Body w' = bodyAfter buf w.
Proof.
  unfold DefaultHTTPError, value, bind, metadataOf.
  destruct (buildErrorBody err) as [body l0]. simpl fst.
  intros ->.
  destruct (ServerMetadataFromContext ctx) as [md ok]. simpl fst.
  unfold handleForwardResponseServerMetadata,
    handleForwardResponseTrailerHeader, handleForwardResponseTrailer.
  unfold statusAfter, bodyAfter, baseHeader.
  destruct w as [h c sh b we cs]; destruct c, we, ok; simpl;
    repeat (rewrite addEntries_spec; simpl);
    repeat (rewrite <- app_assoc; simpl);
    repeat split; try discriminate.
Qed.

(** The log of the two paths. *)
Lemma DefaultHTTPError_failure_log (ctx : Context) (mux : ServeMux)
    (marshaler : Marshaler) (w : http.ResponseWriter) (req : http.Request)
    (err : error) (buf merr : string) :
  Marshal marshaler (value (buildErrorBody err)) = (buf, Some merr) ->
  logged (DefaultHTTPError ctx mux marshaler w req err)
  = (logged (buildErrorBody err)
     ++ [Printf "Failed to marshal error message %q: %v"
           [ArgBody (value (buildErrorBody err)); ArgError merr]]
     ++ writeErrorLog w)%list.
Proof.
  unfold DefaultHTTPError, value, logged, bind, writeErrorLog.
  destruct (buildErrorBody err) as [body l0]. simpl fst. simpl snd.
  intros ->.
  destruct w as [h c sh b we cs]; destruct c, we; reflexivity.
Qed.

Lemma DefaultHTTPError_success_log (ctx : Context) (mux : ServeMux)
    (marshaler : Marshaler) (w : http.ResponseWriter) (req : http.Request)
    (err : error) (buf : string) :
  Marshal marshaler (value (buildErrorBody err)) = (buf, None) ->
  logged (DefaultHTTPError ctx mux marshaler w req err)
  = (logged (buildErrorBody err) ++ noMetadataLog ctx ++ writeErrorLog w)%list.
Proof.
  unfold DefaultHTTPError, value, logged, bind, writeErrorLog, noMetadataLog.
  destruct (buildErrorBody err) as [body l0]. simpl fst. simpl snd.
  intros ->.
  destruct (ServerMetadataFromContext ctx) as [md ok]. simpl snd.
  unfold handleForwardResponseServerMetadata,
    handleForwardResponseTrailerHeader, handleForwardResponseTrailer.
  destruct w as [h c sh b we cs]; destruct c, we, ok; simpl;
    repeat (rewrite addEntries_spec; simpl); reflexivity.
Qed.

(** C2: when the envelope is serialized, [DefaultHTTPError] calls
    [WriteHeader] once, with 200, whatever status code the error carries,
    so a response that was not started gets the status line 200; the
    only data written is the serialized envelope. *)
Theorem DefaultHTTPError_writes_200 (ctx : Context) (mux : ServeMux)
    (marshaler : Marshaler) (w : http.ResponseWriter) (req : http.Request)
    (err : error) (buf : string) :
  Marshal marshaler (value (buildErrorBody err)) = (buf, None) ->
  let w' := value (DefaultHTTPError ctx mux marshaler w req err) in
  statusCalls (http.calls w') = (statusCalls (http.calls w) ++ [200])%list
  /\ (http.Code w = None -> http.Code w' = Some 200)
  /\ writeCalls (http.calls w') = (writeCalls (http.calls w) ++ [buf])%list.
Proof.
  intros Hm w'.
  destruct (DefaultHTTPError_marshal_success ctx mux marshaler w req err buf Hm)
    as (Hcalls & _ & Hcode & _).
  fold w' in Hcalls, Hcode. split; [|split].
  - rewrite Hcalls, !statusCalls_app, !statusCalls_addCalls. reflexivity.
  - intros Hfresh. rewrite Hcode. unfold statusAfter. now rewrite Hfresh.
  - rewrite Hcalls, !writeCalls_app, !writeCalls_addCalls. reflexivity.
Qed.

(** C3: when [Marshal] fails, [DefaultHTTPError] writes status 500 and
    the fixed body [{"error": "failed to marshal error message"}] and
    stops: after the removal of [Trailer] and the assignment of
    [Content-Type] it makes these two calls and no other, so no metadata
    is forwarded, nothing is written twice and no other header is set. *)
Theorem DefaultHTTPError_fallback (ctx : Context) (mux : ServeMux)
    (marshaler : Marshaler) (w : http.ResponseWriter) (req : http.Request)
    (err : error) (buf merr : string) :
  Marshal marshaler (value (buildErrorBody err)) = (buf, Some merr) ->
  let w' := value (DefaultHTTPError ctx mux marshaler w req err) in
  http.calls w'
    = (http.calls w
       ++ [http.CDel "Trailer";
           http.CSet "Content-Type" (ContentType marshaler);
           http.CWriteHeader 500; http.CWrite fallback])%list
  /\ bytesOf fallback
     = [123; 34; 101; 114; 114; 111; 114; 34; 58; 32; 34; 102; 97; 105;
        108; 101; 100; 32; 116; 111; 32; 109; 97; 114; 115; 104; 97; 108;
        32; 101; 114; 114; 111; 114; 32; 109; 101; 115; 115; 97; 103; 101;
        34; 125]%nat
  /\ http.HeaderMap w' = baseHeader marshaler w
  /\ (http.Code w = None ->
      http.Code w' = Some 500 /\ http.snapHeader w' = baseHeader marshaler w)
  /\ (http.writeErr w = None -> http.Body w' = http.Body w ++ fallback).
Proof.
  intros Hm w'.
  destruct (DefaultHTTPError_marshal_failure ctx mux marshaler w req err
              buf merr Hm) as (Hcalls & Hhdr & Hcode & Hsnap & _ & Hbody).
  fold w' in Hcalls, Hhdr, Hcode, Hsnap, Hbody.
  split; [exact Hcalls|]. split; [reflexivity|]. split; [exact Hhdr|].
  split.
  - intros Hfresh. split; [|now apply Hsnap].
    rewrite Hcode. unfold statusAfter. now rewrite Hfresh.
  - intros Hconn. rewrite Hbody. unfold bodyAfter. now rewrite Hconn.
Qed.

(** C4: for an error from which no status can be extracted,
    [DefaultHTTPError] builds the envelope of an UNKNOWN status: code 2,
    the text of the error as message, the token UNKNOWN, no details; and
    it is this envelope that is handed to the marshaler, whose bytes are
    the data written. *)
Theorem DefaultHTTPError_unknown (ctx : Context) (mux : ServeMux)
    (marshaler : Marshaler) (w : http.ResponseWriter) (req : http.Request)
    (err : error) :
  status.FromError err = None ->
  let body := value (buildErrorBody err) in
  let w' := value (DefaultHTTPError ctx mux marshaler w req err) in
  Code (Error body) = codes.Unknown
  /\ Code (Error body) = 2
  /\ Message (Error body) = err_Error err
  /\ Status (Error body) = "UNKNOWN"
  /\ Details (Error body) = []
  /\ (forall buf, Marshal marshaler (unknownEnvelope err) = (buf, None) ->
      writeCalls (http.calls w') = (writeCalls (http.calls w) ++ [buf])%list).
Proof.
  intros Hno body w'. subst body.
  rewrite (buildErrorBody_unknown err Hno).
  repeat (split; [reflexivity|]).
  intros buf Hm.
  assert (Hm' : Marshal marshaler (value (buildErrorBody err)) = (buf, None))
    by now rewrite (buildErrorBody_unknown err Hno).
  destruct (DefaultHTTPError_marshal_success ctx mux marshaler w req err buf Hm')
    as (Hcalls & _).
  fold w' in Hcalls.
  rewrite Hcalls, !writeCalls_app, !writeCalls_addCalls. reflexivity.
Qed.

(** C8: when the context carries no server metadata, [DefaultHTTPError]
    still completes: after the removal of [Trailer] and the assignment of
    [Content-Type] it writes one status and one body and does nothing
    else, so the header map holds no [Trailer] entry and no entry that
    was not there before, [Content-Type] apart.  The absence is only
    logged. *)
Theorem DefaultHTTPError_no_metadata (ctx : Context) (mux : ServeMux)
    (marshaler : Marshaler) (w : http.ResponseWriter) (req : http.Request)
    (err : error) :
  serverMetadata ctx = None ->
  let w' := value (DefaultHTTPError ctx mux marshaler w req err) in
  let '(buf, merr) := Marshal marshaler (value (buildErrorBody err)) in
  let statusCode := match merr with Some _ => 500 | None => 200 end in
  let data := match merr with Some _ => fallback | None => buf end in
  http.calls w'
    = (http.calls w
       ++ [http.CDel "Trailer";
           http.CSet "Content-Type" (ContentType marshaler);
           http.CWriteHeader statusCode; http.CWrite data])%list
  /\ writeCalls (http.calls w') = (writeCalls (http.calls w) ++ [data])%list
  /\ http.HeaderMap w' = baseHeader marshaler w
  /\ http.HeaderMap w' !! "Trailer" = None
  /\ http.HeaderMap w' !! "Content-Type" = Some [ContentType marshaler]
  /\ (forall key, key <> "Content-Type" -> key <> "Trailer" ->
      http.HeaderMap w' !! key = http.HeaderMap w !! key)
  /\ (http.HeaderMap w = ∅ ->
      http.HeaderMap w' = {["Content-Type" := [ContentType marshaler]]})
  /\ match merr with
     | Some _ => True
     | None =>
         In (Printf "Failed to extract ServerMetadata from context" [])
            (logged (DefaultHTTPError ctx mux marshaler w req err))
     end
  /\ (http.Code w = None ->
      http.Code w' = Some statusCode
      /\ http.snapHeader w' = baseHeader marshaler w).
Proof.
  intros Hno w'.
  destruct (Marshal marshaler (value (buildErrorBody err)))
    as [buf [merr|]] eqn:Hm.
  - destruct (DefaultHTTPError_marshal_failure ctx mux marshaler w req err
                buf merr Hm) as (Hcalls & Hhdr & Hcode & Hsnap & _).
    fold w' in Hcalls, Hhdr, Hcode, Hsnap.
    split; [exact Hcalls|].
    split; [rewrite Hcalls, writeCalls_app; reflexivity|].
    split; [exact Hhdr|]. rewrite Hhdr.
    split; [apply baseHeader_no_trailer|].
    split; [apply baseHeader_content_type|].
    split; [intros key; apply baseHeader_other|].
    split; [apply baseHeader_empty|].
    split; [exact I|].
    intros Hfresh. split; [|now apply Hsnap].
    rewrite Hcode. unfold statusAfter. now rewrite Hfresh.
  - destruct (DefaultHTTPError_marshal_success ctx mux marshaler w req err
                buf Hm) as (Hcalls & Hhdr & Hcode & Hsnap & _).
    fold w' in Hcalls, Hhdr, Hcode, Hsnap.
    unfold metadataOf, ServerMetadataFromContext in Hcalls, Hhdr, Hsnap.
    rewrite Hno in Hcalls, Hhdr, Hsnap. simpl in Hcalls, Hhdr, Hsnap.
    split; [exact Hcalls|].
    split; [rewrite Hcalls, writeCalls_app; reflexivity|].
    split; [exact Hhdr|]. rewrite Hhdr.
    split; [apply baseHeader_no_trailer|].
    split; [apply baseHeader_content_type|].
    split; [intros key; apply baseHeader_other|].
    split; [apply baseHeader_empty|].
    split.
    { rewrite (DefaultHTTPError_success_log ctx mux marshaler w req err buf Hm).
      unfold noMetadataLog, ServerMetadataFromContext. rewrite Hno. simpl.
      apply in_or_app. right. now left. }
    intros Hfresh. split; [|now apply Hsnap].
    rewrite Hcode. unfold statusAfter. now rewrite Hfresh.
Qed.

Lemma addHeaders_app (l1 l2 : list (string * string))
    (h : gmap string (list string)) :
  addHeaders (l1 ++ l2) h = addHeaders l2 (addHeaders l1 h).
Proof. unfold addHeaders. apply fold_left_app. Qed.

(** C9: on every invocation, whether the marshaler fails or not, the
    first two things [DefaultHTTPError] does to the response are the
    removal of the [Trailer] header and the assignment of [Content-Type]
    to the marshaler's content type; every header entry it adds
    afterwards is added to the map so obtained. *)
Theorem DefaultHTTPError_prologue (ctx : Context) (mux : ServeMux)
    (marshaler : Marshaler) (w : http.ResponseWriter) (req : http.Request)
    (err : error) :
  let w' := value (DefaultHTTPError ctx mux marshaler w req err) in
  (exists rest,
      http.calls w'
      = (http.calls w
         ++ http.CDel "Trailer"
         :: http.CSet "Content-Type" (ContentType marshaler) :: rest)%list)
  /\ http.HeaderMap w'
     = addHeaders (forwardedEntries ctx marshaler err)
         (<["Content-Type" := [ContentType marshaler]]>
            (delete "Trailer" (http.HeaderMap w))).
Proof.
  intros w'. unfold forwardedEntries.
  destruct (Marshal marshaler (value (buildErrorBody err)))
    as [buf [merr|]] eqn:Hm.
  - destruct (DefaultHTTPError_marshal_failure ctx mux marshaler w req err
                buf merr Hm) as (Hcalls & Hhdr & _).
    fold w' in Hcalls, Hhdr. split; [|exact Hhdr].
    eexists. exact Hcalls.
  - destruct (DefaultHTTPError_marshal_success ctx mux marshaler w req err
                buf Hm) as (Hcalls & Hhdr & _).
    fold w' in Hcalls, Hhdr. split.
    + eexists. rewrite Hcalls. reflexivity.
    + cbn [snd]. cbv iota zeta. rewrite !addHeaders_app. exact Hhdr.
Qed.

(** C10: [DefaultHTTPError] and [DefaultOtherErrorHandler] ignore the
    request: with the other arguments equal, two requests give the same
    response (and the same log). *)
Theorem renderers_ignore_request (ctx : Context) (mux : ServeMux)
    (marshaler : Marshaler) (w : http.ResponseWriter)
    (req1 req2 : http.Request) (err : error) (msg : string) (code : Z) :
  DefaultHTTPError ctx mux marshaler w req1 err
  = DefaultHTTPError ctx mux marshaler w req2 err
  /\ DefaultOtherErrorHandler w req1 msg code
     = DefaultOtherErrorHandler w req2 msg code.
Proof. split; reflexivity. Qed.

End RendererProperties.

(** ** The handler of the other errors *)

(** The two status codes that [DefaultHTTPError] passes to [WriteHeader]
    are accepted by its check. *)
Lemma DefaultHTTPError_codes_accepted :
  http.checkWriteHeaderCode http.StatusOK = true
  /\ http.checkWriteHeaderCode http.StatusInternalServerError = true.
Proof. split; reflexivity. Qed.




(** ** The theorems at sample inputs *)

Lemma DefaultHTTPError_writes_200_witness :
  let w' := value (DefaultHTTPError someMetadata tt textMarshaler
                     http.NewRecorder getRequest notFoundError) in
  Marshal textMarshaler (value (buildErrorBody notFoundError))
  = ("NOT_FOUND: missing", None)
  /\ statusCalls (http.calls w') = [200]
  /\ http.Code w' = Some 200
  /\ writeCalls (http.calls w') = ["NOT_FOUND: missing"].
Proof.
  destruct (DefaultHTTPError_writes_200 someMetadata tt textMarshaler
              http.NewRecorder getRequest notFoundError "NOT_FOUND: missing"
              eq_refl) as (Hstatus & Hline & Hwrites).
  split; [reflexivity|].
  split; [exact Hstatus|].
  split; [exact (Hline eq_refl)|exact Hwrites].
Defined.

Lemma DefaultHTTPError_fallback_witness :
  let w' := value (DefaultHTTPError someMetadata tt failingMarshaler
                     http.NewRecorder getRequest notFoundError) in
  Marshal failingMarshaler (value (buildErrorBody notFoundError))
  = (EmptyString, Some "cannot marshal")
  /\ http.calls w'
     = [http.CDel "Trailer"; http.CSet "Content-Type" "application/json";
        http.CWriteHeader 500; http.CWrite fallback]
  /\ http.Code w' = Some 500
  /\ http.snapHeader w' = baseHeader failingMarshaler http.NewRecorder
  /\ http.Body w' = fallback.
Proof.
  destruct (DefaultHTTPError_fallback someMetadata tt failingMarshaler
              http.NewRecorder getRequest notFoundError EmptyString
              "cannot marshal" eq_refl)
    as (Hcalls & _ & _ & Hline & Hbody).
  split; [reflexivity|].
  split; [exact Hcalls|].
  split; [exact (proj1 (Hline eq_refl))|].
  split; [exact (proj2 (Hline eq_refl))|exact (Hbody eq_refl)].
Defined.

Lemma DefaultHTTPError_unknown_witness :
  let body := value (buildErrorBody boomError) in
  let w' := value (DefaultHTTPError noMetadata tt textMarshaler
                     http.NewRecorder getRequest boomError) in
  status.FromError boomError = None
  /\ Code (Error body) = 2
  /\ Message (Error body) = "boom"
  /\ Status (Error body) = "UNKNOWN"
  /\ writeCalls (http.calls w') = ["UNKNOWN: boom"].
Proof.
  destruct (DefaultHTTPError_unknown noMetadata tt textMarshaler
              http.NewRecorder getRequest boomError eq_refl)
    as (_ & Hcode & Hmsg & Htok & _ & Hwrites).
  split; [reflexivity|].
  split; [exact Hcode|].
  split; [exact Hmsg|].
  split; [exact Htok|exact (Hwrites "UNKNOWN: boom" eq_refl)].
Defined.

Lemma DefaultHTTPError_no_metadata_witness :
  let w' := value (DefaultHTTPError noMetadata tt textMarshaler
                     http.NewRecorder getRequest notFoundError) in
  serverMetadata noMetadata = None
  /\ http.calls w'
     = [http.CDel "Trailer"; http.CSet "Content-Type" "application/json";
        http.CWriteHeader 200; http.CWrite "NOT_FOUND: missing"]
  /\ http.HeaderMap w' !! "Trailer" = None
  /\ http.HeaderMap w' = {["Content-Type" := ["application/json"]]}
  /\ http.Code w' = Some 200.
Proof.
  destruct (DefaultHTTPError_no_metadata noMetadata tt textMarshaler
              http.NewRecorder getRequest notFoundError eq_refl)
    as (Hcalls & _ & _ & Htrailer & _ & _ & Hfresh & _ & Hline).
  split; [reflexivity|].
  split; [exact Hcalls|].
  split; [exact Htrailer|].
  split; [exact (Hfresh eq_refl)|exact (proj1 (Hline eq_refl))].
Defined.


(** * Further properties of the translator *)

(** A code is one of the 17 values or none of them. *)
Lemma code_cases (code : codes.Code) :
  (exists sc, Spec.code sc = code) \/ (forall sc, Spec.code sc <> code).
Proof.
  destruct (Z_lt_dec code 0) as [Hneg|Hnn].
  { right. apply outside_range. now left. }
  destruct (Z_lt_dec 16 code) as [Hbig|Hsmall].
  { right. apply outside_range. now right. }
  left.
  assert (Hin : In code (map Spec.code Spec.all))
    by (simpl; unfold_codes; lia).
  apply in_map_iff in Hin as (sc & Hsc & _). now exists sc.
Qed.

Lemma HTTPStatusStringFromCode_outside (code : codes.Code) :
  (forall sc, Spec.code sc <> code) ->
  HTTPStatusStringFromCode code
  = ("INTERNAL", [Printf "Unknown gRPC error code: %v" [ArgCode code]]).
Proof.
  intros Hout. apply outside_range in Hout.
  unfold HTTPStatusStringFromCode. skip_cases. reflexivity.
Qed.

Lemma HTTPStatusFromCode_outside (code : codes.Code) :
  (forall sc, Spec.code sc <> code) ->
  HTTPStatusFromCode code
  = (500, [Printf "Unknown gRPC error code: %v" [ArgCode code]]).
Proof.
  intros Hout. apply outside_range in Hout.
  unfold HTTPStatusFromCode. skip_cases. reflexivity.
Qed.

(** X1: the token identifies the code: two of the 17 codes with the same
    token are the same code. *)
Theorem token_injective (a b : Spec.StatusCode) :
  value (HTTPStatusStringFromCode (Spec.code a))
  = value (HTTPStatusStringFromCode (Spec.code b)) ->
  a = b.
Proof.
  destruct a, b; intros H; try reflexivity; vm_compute in H; discriminate H.
Qed.

Lemma token_injective_witness : Spec.NOT_FOUND = Spec.NOT_FOUND.
Proof. apply (token_injective Spec.NOT_FOUND Spec.NOT_FOUND). reflexivity. Defined.

(** X2: the token INTERNAL is ambiguous: it is returned for
    [codes.Internal] and for every code outside the enumeration, and for no
    other code. *)
Theorem token_internal_iff (code : codes.Code) :
  value (HTTPStatusStringFromCode code) = "INTERNAL"
  <-> code = codes.Internal \/ (forall sc, Spec.code sc <> code).
Proof.
  split.
  - intros H. destruct (code_cases code) as [[sc <-]|Hout]; [|now right].
    left. destruct sc; try reflexivity; vm_compute in H; discriminate H.
  - intros [->|Hout]; [reflexivity|].
    now rewrite (HTTPStatusStringFromCode_outside code Hout).
Qed.

(** X3: [HTTPStatusFromCode] returns 200 for [codes.OK] only; every other
    code, listed or not, gets a status between 400 and 503. *)
Theorem HTTPStatusFromCode_ok_iff (code : codes.Code) :
  (value (HTTPStatusFromCode code) = 200 <-> code = codes.OK)
  /\ (code <> codes.OK -> 400 <= value (HTTPStatusFromCode code) <= 503).
Proof.
  destruct (code_cases code) as [[sc <-]|Hout].
  - destruct sc; vm_compute; (split; [split|]); intros H;
      try reflexivity; try discriminate H; try (exfalso; now apply H);
      split; discriminate.
  - rewrite (HTTPStatusFromCode_outside code Hout). simpl. split; [split|].
    + discriminate.
    + intros ->. exfalso. exact (Hout Spec.OK eq_refl).
    + lia.
Qed.

Lemma HTTPStatusFromCode_ok_iff_witness :
  400 <= value (HTTPStatusFromCode 99) <= 503.
Proof.
  apply (proj2 (HTTPStatusFromCode_ok_iff 99)). discriminate.
Defined.

(** X4: the two switches list the same codes: both functions log the same
    entries, and they log nothing exactly for the 17 codes. *)
Theorem translators_log_alike (code : codes.Code) :
  logged (HTTPStatusStringFromCode code) = logged (HTTPStatusFromCode code)
  /\ (logged (HTTPStatusFromCode code) = []
      <-> exists sc, Spec.code sc = code).
Proof.
  destruct (code_cases code) as [[sc <-]|Hout].
  - split; [destruct sc; reflexivity|].
    split; [intros _; now exists sc|intros _; destruct sc; reflexivity].
  - rewrite (HTTPStatusStringFromCode_outside code Hout),
      (HTTPStatusFromCode_outside code Hout).
    split; [reflexivity|]. split; [discriminate|].
    intros [sc Hsc]. exfalso. exact (Hout sc Hsc).
Qed.

(** X5: every token, the fallback included, is made of capital letters and
    underscores. *)
Theorem token_uppercase (code : codes.Code) :
  forallb isUpperOrUnderscore
    (list_ascii_of_string (value (HTTPStatusStringFromCode code))) = true.
Proof.
  destruct (code_cases code) as [[sc <-]|Hout].
  - destruct sc; reflexivity.
  - now rewrite (HTTPStatusStringFromCode_outside code Hout).
Qed.

Lemma token_internal_iff_witness :
  value (HTTPStatusStringFromCode 4294967295) = "INTERNAL".
Proof.
  apply (proj2 (token_internal_iff 4294967295)). right.
  intros sc; destruct sc; vm_compute; discriminate.
Defined.

Lemma translators_log_alike_witness : logged (HTTPStatusFromCode 16) = [].
Proof.
  apply (proj2 (proj2 (translators_log_alike 16))).
  exists Spec.UNAUTHENTICATED. reflexivity.
Defined.

(** * Further properties of the envelope *)

Lemma int32_small (x : Z) : - 2 ^ 31 <= x < 2 ^ 31 -> int32 x = x.
Proof. intros H. unfold int32. rewrite Z.mod_small; lia. Qed.

Lemma uint32_int32 (x : Z) : uint32 (int32 x) = uint32 x.
Proof.
  unfold uint32, int32.
  rewrite Zminus_mod_idemp_l. f_equal. lia.
Qed.

(** X6: an error of the gRPC system with one of the 17 codes is rendered
    with that code, the message and the details of its status (not the text
    of the error) and the token of the code; nothing is logged. *)
Theorem buildErrorBody_listed (sc : Spec.StatusCode) (text msg : string)
    (details : list Any) :
  buildErrorBody (mkError text (Some (spb.mkStatus (Spec.code sc) msg details)))
  = ({| Error := {| Code := Spec.code sc;
                    Message := msg;
                    Status := match sc with
                              | Spec.UNIMPLEMENTED => "NOT_IMPLEMENTED"
                              | _ => Spec.name sc
                              end;
                    Details := details |} |}, []).
Proof. destruct sc; reflexivity. Qed.

(** X7: a status whose [int32] code is none of the 17 values, a negative
    one included, keeps its code in the envelope and gets the token
    INTERNAL; the code is logged as the [uint32] it converts to. *)
Theorem buildErrorBody_unlisted (c : Z) (text msg : string)
    (details : list Any) :
  - 2 ^ 31 <= c < 2 ^ 31 ->
  c < 0 \/ 16 < c ->
  buildErrorBody (mkError text (Some (spb.mkStatus c msg details)))
  = ({| Error := {| Code := c; Message := msg; Status := "INTERNAL";
                    Details := details |} |},
     [Printf "Unknown gRPC error code: %v" [ArgCode (c mod 2 ^ 32)]]).
Proof.
  intros Hrange Hout.
  assert (Hcode : forall sc, Spec.code sc <> uint32 c).
  { apply outside_range. unfold uint32. right.
    destruct Hout as [Hneg|Hbig].
    - rewrite <- (Z.mod_add c 1) by lia. rewrite Z.mod_small; lia.
    - rewrite Z.mod_small; lia. }
  unfold buildErrorBody, status.FromError, status.Proto, status.Code. simpl.
  rewrite (HTTPStatusStringFromCode_outside _ Hcode).
  unfold bind, ret. simpl. now rewrite (int32_small c Hrange).
Qed.

Lemma buildErrorBody_unlisted_witness :
  buildErrorBody (mkError "rpc error" (Some (spb.mkStatus (-1) "odd" [])))
  = ({| Error := {| Code := -1; Message := "odd"; Status := "INTERNAL";
                    Details := [] |} |},
     [Printf "Unknown gRPC error code: %v" [ArgCode 4294967295]]).
Proof.
  apply (buildErrorBody_unlisted (-1) "rpc error" "odd" []).
  - split; [discriminate|reflexivity].
  - left. reflexivity.
Defined.

(** X8: in every envelope the token is the token of the numeric code: the
    two fields never disagree, whatever the error. *)
Theorem envelope_token_of_code (err : error) :
  let body := value (buildErrorBody err) in
  Status (Error body)
  = value (HTTPStatusStringFromCode (uint32 (Code (Error body)))).
Proof.
  rewrite buildErrorBody_value. simpl.
  unfold status.Code. now rewrite uint32_int32.
Qed.

(** * Further properties of [DefaultHTTPError] *)

Section RendererFurther.

Context {ServeMux : Type}.

(** X9: the response depends on the error only through the outcome of
    [Marshal] on its envelope.  Two errors on which the marshaler fails get
    the same response, whatever the marshaler returns with each failure: the
    fallback response tells nothing about the error.  Two errors whose
    envelopes are serialized to the same bytes get the same response. *)
Theorem response_only_through_marshal (ctx : Context) (mux : ServeMux)
    (marshaler : Marshaler) (w : http.ResponseWriter) (req : http.Request)
    (err1 err2 : error) :
  let r1 := Marshal marshaler (value (buildErrorBody err1)) in
  let r2 := Marshal marshaler (value (buildErrorBody err2)) in
  (snd r1 <> None /\ snd r2 <> None)
  \/ (snd r1 = None /\ snd r2 = None /\ fst r1 = fst r2) ->
  value (DefaultHTTPError ctx mux marshaler w req err1)
  = value (DefaultHTTPError ctx mux marshaler w req err2).
Proof.
  unfold DefaultHTTPError, value, bind.
  destruct (buildErrorBody err1) as [b1 l1].
  destruct (buildErrorBody err2) as [b2 l2]. simpl fst.
  destruct (Marshal marshaler b1) as [buf1 [merr1|]];
    destruct (Marshal marshaler b2) as [buf2 [merr2|]]; simpl;
    intros [[H1 H2]|(H1 & H2 & Hbuf)];
    try discriminate; try (now contradiction H1); try (now contradiction H2).
  - destruct w as [h c sh b we cs]; destruct c, we; reflexivity.
  - subst buf2.
    destruct (ServerMetadataFromContext ctx) as [md ok].
    unfold handleForwardResponseServerMetadata,
      handleForwardResponseTrailerHeader, handleForwardResponseTrailer.
    destruct w as [h c sh b we cs]; destruct c, we, ok; simpl;
      repeat (rewrite addEntries_spec; simpl); reflexivity.
Qed.

(** X10: what [DefaultHTTPError] logs, in order: the entry of the
    translator for an unlisted code; then the marshal failure with the
    envelope and the marshaler's error, or, when the envelope is
    serialized, the absence of server metadata; then the failure of the
    write. *)
Theorem DefaultHTTPError_log (ctx : Context) (mux : ServeMux)
    (marshaler : Marshaler) (w : http.ResponseWriter) (req : http.Request)
    (err : error) :
  logged (DefaultHTTPError ctx mux marshaler w req err)
  = (logged (HTTPStatusStringFromCode (status.Code (statusOfError err)))
     ++ match snd (Marshal marshaler (value (buildErrorBody err))) with
        | Some merr =>
            [Printf "Failed to marshal error message %q: %v"
               [ArgBody (value (buildErrorBody err)); ArgError merr]]
        | None =>
            match serverMetadata ctx with
            | Some _ => []
            | None => [Printf "Failed to extract ServerMetadata from context" []]
            end
        end
     ++ match http.writeErr w with
        | Some e => [Printf "Failed to write response: %v" [ArgError e]]
        | None => []
        end)%list.
Proof.
  assert (Hlog : logged (buildErrorBody err)
                 = logged (HTTPStatusStringFromCode
                             (status.Code (statusOfError err)))).
  { unfold buildErrorBody, statusOfError, logged, bind, ret.
    destruct (HTTPStatusStringFromCode _) as [tok l]. simpl.
    apply app_nil_r. }
  destruct (Marshal marshaler (value (buildErrorBody err)))
    as [buf [merr|]] eqn:Hm; simpl snd.
  - rewrite (DefaultHTTPError_failure_log ctx mux marshaler w req err buf merr Hm).
    now rewrite Hlog.
  - rewrite (DefaultHTTPError_success_log ctx mux marshaler w req err buf Hm).
    rewrite Hlog. unfold noMetadataLog, ServerMetadataFromContext, writeErrorLog.
    destruct (serverMetadata ctx); reflexivity.
Qed.

(** X11: [DefaultHTTPError] logs nothing exactly when the code of the
    status is one of the 17, the envelope is serialized, the context
    carries server metadata and the write succeeds. *)
Theorem DefaultHTTPError_quiet_iff (ctx : Context) (mux : ServeMux)
    (marshaler : Marshaler) (w : http.ResponseWriter) (req : http.Request)
    (err : error) :
  logged (DefaultHTTPError ctx mux marshaler w req err) = []
  <-> (exists sc, Spec.code sc = status.Code (statusOfError err))
      /\ snd (Marshal marshaler (value (buildErrorBody err))) = None
      /\ serverMetadata ctx <> None
      /\ http.writeErr w = None.
Proof.
  rewrite DefaultHTTPError_log.
  destruct (code_cases (status.Code (statusOfError err))) as [[sc Hsc]|Hout].
  - assert (Hnil : logged (HTTPStatusStringFromCode
                             (status.Code (statusOfError err))) = []).
    { rewrite <- Hsc. destruct sc; reflexivity. }
    rewrite Hnil. simpl.
    destruct (snd (Marshal marshaler (value (buildErrorBody err)))) as [merr|].
    { split; [discriminate|]. intros (_ & H & _). discriminate H. }
    destruct (serverMetadata ctx) as [md|].
    + destruct (http.writeErr w) as [e|]; simpl.
      * split; [discriminate|]. intros (_ & _ & _ & H). discriminate H.
      * split; [|reflexivity]. intros _.
        split; [now exists sc|]. repeat split. discriminate.
    + split; [discriminate|]. intros (_ & _ & H & _). now contradiction H.
  - rewrite (HTTPStatusStringFromCode_outside _ Hout).
    split; [discriminate|].
    intros ([sc Hsc] & _). exfalso. exact (Hout sc Hsc).
Qed.

(** X12: a failed write does not stop the rendering: on a connection that
    answers an error to [Write], the same calls are made, the header map
    and the status line end the same as on a sound connection, in
    particular the trailers are still forwarded; only the body stays as it
    was. *)
Theorem write_failure_only_logged (ctx : Context) (mux : ServeMux)
    (marshaler : Marshaler) (w : http.ResponseWriter) (req : http.Request)
    (err : error) (e : string) :
  let broken :=
    value (DefaultHTTPError ctx mux marshaler (withWriteErr (Some e) w)
             req err) in
  let sound :=
    value (DefaultHTTPError ctx mux marshaler (withWriteErr None w)
             req err) in
  http.calls broken = http.calls sound
  /\ http.HeaderMap broken = http.HeaderMap sound
  /\ http.Code broken = http.Code sound
  /\ http.snapHeader broken = http.snapHeader sound
  /\ http.Body broken = http.Body w.
Proof.
  unfold DefaultHTTPError, value, bind.
  destruct (buildErrorBody err) as [body l0]. simpl fst.
  destruct (Marshal marshaler body) as [buf [merr|]].
  - destruct w as [h c sh b we cs]; destruct c; repeat split.
  - destruct (ServerMetadataFromContext ctx) as [md ok].
    unfold handleForwardResponseServerMetadata,
      handleForwardResponseTrailerHeader, handleForwardResponseTrailer.
    destruct w as [h c sh b we cs]; destruct c, ok; simpl;
      repeat (rewrite addEntries_spec; simpl); repeat split.
Qed.

End RendererFurther.

Lemma response_only_through_marshal_witness :
  Marshal echoFailMarshaler (value (buildErrorBody notFoundError))
  <> Marshal echoFailMarshaler (value (buildErrorBody boomError))
  /\ value (DefaultHTTPError someMetadata tt echoFailMarshaler
              http.NewRecorder getRequest notFoundError)
     = value (DefaultHTTPError someMetadata tt echoFailMarshaler
                http.NewRecorder getRequest boomError).
Proof.
  split; [discriminate|].
  apply (response_only_through_marshal someMetadata tt echoFailMarshaler
           http.NewRecorder getRequest notFoundError boomError).
  left. split; discriminate.
Defined.

Lemma DefaultHTTPError_quiet_iff_witness :
  logged (DefaultHTTPError someMetadata tt textMarshaler http.NewRecorder
            getRequest notFoundError) = [].
Proof.
  apply (proj2 (DefaultHTTPError_quiet_iff someMetadata tt textMarshaler
                  http.NewRecorder getRequest notFoundError)).
  split; [exists Spec.NOT_FOUND; reflexivity|].
  split; [reflexivity|]. split; [discriminate|reflexivity].
Defined.
